(** * Labour-market dashboard (app.py): a shallow embedding and its properties

    The script loads a table of regional labour statistics, derives two
    rates, filters by year set and region, and renders summary cards, a
    table and at most one chart.

    Numbers.  The statements about the value of a derived rate are made
    over binary64, as the script computes (module [Binary64], lines
    73-78).  The table that the rest of the script filters, averages and
    draws carries exact rationals ([Q], equality [==]): those statements
    are about which rows and which columns are used, not about the last
    digit of a number. *)

From Stdlib Require Import List String Ascii Bool ZArith QArith Qround Lia Lqa.
From Stdlib Require Import DecimalString Floats.
From Stdlib Require Import Sorting.Sorted Sorting.Permutation.
Import ListNotations.

Local Open Scope string_scope.
Local Open Scope Z_scope.

(** ** Data model *)

(** The aggregate label of the input file and the label shown to the user. *)
Definition AGGREGATE : string := "계".
Definition NATIONWIDE : string := "전국".

(** One line of the input file, as [pd.read_csv] delivers it. *)
Record RawRow : Type := mkRawRow {
  raw_region : string;          (* 지역 *)
  raw_year : Z;                 (* 년도 *)
  raw_econ_active : Q;          (* 경제활동인구 (천명) *)
  raw_employed : Q;             (* 취업자 (천명) *)
  raw_unemployed : Q            (* 실업자 (천명) *)
}.

(** One row of the preprocessed frame: the five columns plus the two
    derived ones. *)
Record Row : Type := mkRow {
  region : string;
  year : Z;
  econ_active : Q;
  employed : Q;
  unemployed : Q;
  employment_rate : Q;          (* 취업률 *)
  unemployment_rate : Q         (* 실업률 *)
}.

Definition DataFrame : Type := list Row.

(** The file system as far as the script looks at it: the input file is
    either absent or holds a list of lines. *)
Definition CsvFile : Type := option (list RawRow).

(** ** Column operations of the loader *)

(** [Series.replace(old, new)]: exact-match replacement of a value. *)
Definition replace_value (old new v : string) : string :=
  if String.eqb v old then new else v.

Definition replace (old new : string) (col : list string) : list string :=
  map (replace_value old new) col.

(** [Series.drop_duplicates()] and [Series.unique()] (both keep the first
    occurrence): a value is kept the first time it is met. *)
Section DropDuplicates.
Context {A : Type} (eqb : A -> A -> bool).

Fixpoint drop_duplicates_from (seen : list A) (col : list A) : list A :=
  match col with
  | [] => []
  | v :: rest =>
      if existsb (eqb v) seen
      then drop_duplicates_from seen rest
      else v :: drop_duplicates_from (v :: seen) rest
  end.

Definition drop_duplicates (col : list A) : list A :=
  drop_duplicates_from [] col.

End DropDuplicates.

(** [np.rint] on an exact number: nearest integer, ties to the even one. *)
Definition rint (x : Q) : Z :=
  let f := Qfloor x in
  match Qcompare (x - inject_Z f) (1 # 2) with
  | Lt => f
  | Gt => f + 1
  | Eq => if Z.even f then f else f + 1
  end.

(** [ndarray.round(decimals)] for a non-negative number of decimals:
    scale by [10^decimals], [rint], scale back. *)
Definition np_round (decimals : nat) (x : Q) : Q :=
  let factor := inject_Z (10 ^ Z.of_nat decimals) in
  (inject_Z (rint (x * factor)) / factor)%Q.

(** [np.divide(a, b, out=..., where=...)], element by element: the
    quotient where the mask holds, the element of [out] elsewhere.  The
    division is a parameter so that the masked positions visibly do not
    depend on it. *)
Definition divide_where (true_divide : Q -> Q -> Q)
  (a b out : Q) (where_ : bool) : Q :=
  if where_ then true_divide a b else out.

(** Lines 73-78 for one row, in exact arithmetic: the rate of [count] in
    the economically active population, in percent with two decimals.
    (The binary64 value the script stores is [Binary64.rate].) *)
Definition rate_percent (count econ_active_pop : Q) : Q :=
  np_round 2
    (divide_where Qdiv count econ_active_pop 0
       (negb (Qeq_bool econ_active_pop 0)) * 100)%Q.

(** The row-wise effect of lines 63 and 73-78. *)
Definition preprocess_row (r : RawRow) : Row :=
  {| region := replace_value AGGREGATE NATIONWIDE (raw_region r);
     year := raw_year r;
     econ_active := raw_econ_active r;
     employed := raw_employed r;
     unemployed := raw_unemployed r;
     employment_rate := rate_percent (raw_employed r) (raw_econ_active r);
     unemployment_rate := rate_percent (raw_unemployed r) (raw_econ_active r) |}.

(** ** Lines 73-78 in binary64 *)

Module Binary64.
Local Open Scope float_scope.


Definition TWO52 : float := 4503599627370496.

(** [np.rint]: the nearest integral value in the current rounding mode
    (to nearest, ties to even), with the sign of the argument; values of
    magnitude 2^52 and more, infinities and NaN are returned as they
    are. *)
Definition rint (x : float) : float :=
  if abs x <? TWO52
  then if x <? 0 then - ((- x + TWO52) - TWO52)
       else if 0 <? x then (x + TWO52) - TWO52
       else x
  else x.

Definition power_of_ten (decimals : nat) : float :=
  Nat.iter decimals (fun p => p * 10) 1.

(** [ndarray.round(decimals)] for a non-negative number of decimals. *)
Definition round (decimals : nat) (x : float) : float :=
  rint (x * power_of_ten decimals) / power_of_ten decimals.




(** What lines 73-78 come to for one row. *)
Definition rate (count pop : float) : float :=
  round 2 ((if negb (pop =? 0) then count / pop else 0) * 100).

End Binary64.

(** ** The script as a program that writes to the page

    A run of the script appends elements to the page and either reaches
    the end, is ended by [st.stop()], or is ended by an exception. *)

Inductive Exception : Type := IndexError.

Inductive Outcome (A : Type) : Type :=
| Done (a : A)
| Stopped
| Raised (e : Exception).
Arguments Done {A} a.
Arguments Stopped {A}.
Arguments Raised {A} e.

Inductive TraceType : Type := Bar | Scatter.

Inductive XData : Type :=
| Categories (labels : list string)
| Numbers (values : list Z).

Record Trace : Type := mkTrace {
  trace_type : TraceType;
  trace_x : XData;
  trace_y : list Q;
  trace_name : string;
  trace_mode : option string;
  trace_yaxis : string
}.

Record Layout : Type := mkLayout {
  title_text : string;
  xaxis_title : string;
  xaxis_ticks : option (list Z * list string);   (* tickmode='array' *)
  yaxis_title : string;
  yaxis2_title : string;
  template : string
}.

Record Figure : Type := mkFigure {
  traces : list Trace;
  layout : Layout
}.

Inductive NumberFormat : Type :=
| Percent2        (* {:.2f}% *)
| Thousands0.     (* {:,.0f} 천명 *)

Inductive Element : Type :=
| PageConfig
| Markdown (html : string)
| MetricCard (title : string) (value : Q) (fmt : NumberFormat)
| Title (text : string)
| Write (text : string)
| Error (text : string)
| Warning (text : string)
| Info (text : string)
| Header (text : string)
| Subheader (text : string)
| SidebarHeader (text : string)
| Multiselect (label : string) (options default : list Z)
| Selectbox (label : string) (options : list string) (index : nat)
| Dataframe (rows : DataFrame)
| PlotlyChart (fig : Figure).

Definition Script (A : Type) : Type := (list Element * Outcome A)%type.

Definition ret {A} (a : A) : Script A := ([], Done a).

Definition bind {A B} (m : Script A) (k : A -> Script B) : Script B :=
  match m with
  | (out, Done a) => let (out', r) := k a in ((out ++ out')%list, r)
  | (out, Stopped) => (out, Stopped)
  | (out, Raised e) => (out, Raised e)
  end.

Definition emit (e : Element) : Script unit := ([e], Done tt).
Definition st_stop {A} : Script A := ([], Stopped).
Definition raise {A} (e : Exception) : Script A := ([], Raised e).

Declare Scope script_scope.
Delimit Scope script_scope with script.
Notation "x <- m ;; k" := (bind m (fun x => k))
  (at level 61, m at next level, right associativity) : script_scope.
Notation "m ;; k" := (bind m (fun _ => k))
  (at level 61, right associativity) : script_scope.
Local Open Scope script_scope.

(** ** The loader, lines 48-80 *)

Definition FILE_NOT_FOUND : string :=
  "'경제활동_통합.csv' 파일을 찾을 수 없습니다. 스크립트와 같은 디렉토리에 있는지 확인해주세요.".

(** The body of [load_and_preprocess_data]: [None] stands for the pair
    [(None, None)] of the script. *)
Definition load_and_preprocess_data (file : CsvFile)
  : Script (option (DataFrame * list string)) :=
  match file with
  | None => emit (Error FILE_NOT_FOUND) ;; ret None
  | Some lines =>
      let df := map preprocess_row lines in
      let original_region_order := drop_duplicates String.eqb (map region df) in
      ret (Some (df, original_region_order))
  end.

(** [@st.cache_data] on a function without arguments: the first call runs
    the body and stores what it returned (elements written included),
    later calls replay the stored result without looking at the file. *)
Definition Cache : Type := option (Script (option (DataFrame * list string))).

Definition cached_load (cache : Cache) (file : CsvFile)
  : Script (option (DataFrame * list string)) * Cache :=
  match cache with
  | Some stored => (stored, cache)
  | None => let r := load_and_preprocess_data file in (r, Some r)
  end.

(** ** Helpers standing for Python and pandas built-ins *)

(** [str(n)] for an integer. *)
Definition str (n : Z) : string := NilZero.string_of_int (Z.to_int n).

(** [sorted] and [sort_values]: an insertion sort, which keeps the order
    of equal keys.  (pandas does not promise that for [sort_values]; no
    statement below depends on the order of rows with equal keys.) *)
Section Sorting.
Context {A : Type} (leb : A -> A -> bool).

Fixpoint insert_sorted (x : A) (l : list A) : list A :=
  match l with
  | [] => [x]
  | y :: rest => if leb x y then x :: y :: rest else y :: insert_sorted x rest
  end.

Fixpoint sort_by (l : list A) : list A :=
  match l with
  | [] => []
  | x :: rest => insert_sorted x (sort_by rest)
  end.

End Sorting.

(** [sorted(values, reverse=True)] *)
Definition sorted_reverse (values : list Z) : list Z := sort_by Z.geb values.

(** [df.sort_values('년도')] *)
Definition sort_values_year (df : DataFrame) : DataFrame :=
  sort_by (fun a b => year a <=? year b) df.

(** [Series.isin(values)] at one cell *)
Definition isin (values : list Z) (v : Z) : bool := existsb (Z.eqb v) values.

(** [Series.mean()] of a column without missing values, in exact
    arithmetic *)
Definition sum (col : list Q) : Q := fold_right Qplus 0%Q col.
Definition mean (col : list Q) : Q :=
  (sum col / inject_Z (Z.of_nat (List.length col)))%Q.

(** ** Section 4 of the script: filtering, lines 121-140 *)

Definition filtered_df (df : DataFrame) (selected_years : list Z) : DataFrame :=
  filter (fun r => isin selected_years (year r)) df.

Definition display_df (df : DataFrame) (selected_years : list Z)
  (selected_region : string) : DataFrame :=
  if String.eqb selected_region NATIONWIDE
  then filtered_df df selected_years
  else filter (fun r => String.eqb (region r) selected_region)
         (filtered_df df selected_years).

Definition kpi_df (df : DataFrame) (selected_years : list Z)
  (selected_region : string) : DataFrame :=
  if String.eqb selected_region NATIONWIDE
  then filter (fun r => String.eqb (region r) NATIONWIDE)
         (display_df df selected_years selected_region)
  else display_df df selected_years selected_region.

(** ** Section 5: summary cards, lines 142-172 *)

Definition avg_employment_rate (kpi : DataFrame) : Q :=
  mean (map employment_rate kpi).
Definition avg_unemployment_rate (kpi : DataFrame) : Q :=
  mean (map unemployment_rate kpi).
Definition avg_econ_pop (kpi : DataFrame) : Q :=
  mean (map econ_active kpi).

Definition NO_DATA : string :=
  "선택된 조건에 해당하는 데이터가 없어 지표를 표시할 수 없습니다.".

Definition summary_cards (kpi : DataFrame) (selected_region : string)
  : Script unit :=
  match kpi with
  | _ :: _ =>
      emit (MetricCard (selected_region ++ " 평균 취업률")
              (avg_employment_rate kpi) Percent2) ;;
      emit (MetricCard (selected_region ++ " 평균 실업률")
              (avg_unemployment_rate kpi) Percent2) ;;
      emit (MetricCard (selected_region ++ " 평균 경제활동인구")
              (avg_econ_pop kpi) Thousands0)
  | [] => emit (Info NO_DATA)
  end.

(** ** Section 6: the table, lines 175-186 *)

Definition data_table (display : DataFrame) (selected_years : list Z)
  (selected_region : string) : Script unit :=
  emit (Header "📄 필터링된 데이터") ;;
  emit (Write "") ;;
  emit (Write ("**선택 조건:** `" ++ String.concat ", " (map str selected_years)
               ++ "년` / `" ++ selected_region ++ "`")) ;;
  emit (Dataframe display).

(** ** Section 7: the chart, lines 189-280 *)

Definition LINES_MARKERS : string := "lines+markers".
Definition TICKVALS : list Z := [2021; 2022; 2023; 2024].
Definition TICKTEXT : list string := ["2021"; "2022"; "2023"; "2024"].

Definition GUIDANCE : string :=
  "데이터 시각화는 다음 조건 중 하나를 만족할 때 제공됩니다:
1. 단일 연도 & '전국' 지역 선택
2. 다중 연도 & 특정 지역 선택".

(** Lines 196-228: bars and a line over the regions of one year. *)
Definition regional_comparison_figure (display : DataFrame)
  (selected_years : list Z) (selected_theme : string) : Figure :=
  let plot_df :=
    filter (fun r => negb (String.eqb (region r) NATIONWIDE)) display in
  {| traces :=
       [ {| trace_type := Bar;
            trace_x := Categories (map region plot_df);
            trace_y := map employment_rate plot_df;
            trace_name := "취업률";
            trace_mode := None;
            trace_yaxis := "y1" |};
         {| trace_type := Scatter;
            trace_x := Categories (map region plot_df);
            trace_y := map unemployment_rate plot_df;
            trace_name := "실업률";
            trace_mode := Some LINES_MARKERS;
            trace_yaxis := "y2" |} ];
     layout :=
       {| title_text := str (hd 0 selected_years) ++ "년 지역별 취업률 및 실업률";
          xaxis_title := "지역";
          xaxis_ticks := None;
          yaxis_title := "취업률 (%)";
          yaxis2_title := "실업률 (%)";
          template := selected_theme |} |}.

(** Lines 235-274: two lines over the years of one region.
    [pd.to_numeric] turns the year categories into the numbers they
    stand for, which is what [year] already holds. *)
Definition trend_figure (display : DataFrame)
  (selected_region selected_theme : string) : Figure :=
  let plot_df := sort_values_year display in
  {| traces :=
       [ {| trace_type := Scatter;
            trace_x := Numbers (map year plot_df);
            trace_y := map employment_rate plot_df;
            trace_name := "취업률";
            trace_mode := Some LINES_MARKERS;
            trace_yaxis := "y1" |};
         {| trace_type := Scatter;
            trace_x := Numbers (map year plot_df);
            trace_y := map unemployment_rate plot_df;
            trace_name := "실업률";
            trace_mode := Some LINES_MARKERS;
            trace_yaxis := "y2" |} ];
     layout :=
       {| title_text := selected_region ++ " 연도별 취업률/실업률 추이";
          xaxis_title := "연도";
          xaxis_ticks := Some (TICKVALS, TICKTEXT);
          yaxis_title := "취업률 (%)";
          yaxis2_title := "실업률 (%)";
          template := selected_theme |} |}.

Definition visualization (display : DataFrame) (selected_years : list Z)
  (selected_region selected_theme : string) : Script unit :=
  emit (Header "📊 데이터 시각화") ;;
  if (List.length selected_years =? 1)%nat
     && String.eqb selected_region NATIONWIDE
  then
    emit (Subheader (str (hd 0 selected_years)
                     ++ "년 지역별 취업률(막대)과 실업률(선) 비교")) ;;
    emit (PlotlyChart
            (regional_comparison_figure display selected_years selected_theme))
  else if (1 <? List.length selected_years)%nat
          && negb (String.eqb selected_region NATIONWIDE)
  then
    emit (Subheader (selected_region
                     ++ " 연도별 취업률/실업률 추이 (주축/보조축)")) ;;
    emit (PlotlyChart (trend_figure display selected_region selected_theme))
  else
    emit (Info GUIDANCE).

(** ** The whole script, lines 7-280

    What the three sidebar widgets return is an input of a run: the
    widgets themselves only show their options and their default. *)

Definition METRIC_CARD_CSS : string := "<style>.metric-card ...</style>".
Definition THEMES : list string :=
  ["plotly"; "plotly_white"; "plotly_dark"; "ggplot2"; "seaborn"; "simple_white"].
Definition SELECT_A_YEAR : string := "하나 이상의 연도를 선택해주세요.".

(** [l[0]] *)
Definition first_item (l : list Z) : Script Z :=
  match l with
  | x :: _ => ret x
  | [] => raise IndexError
  end.

Definition all_years (df : DataFrame) : list Z :=
  sorted_reverse (drop_duplicates Z.eqb (map year df)).

Definition main (file : CsvFile) (selected_years : list Z)
  (selected_region selected_theme : string) : Script unit :=
  emit PageConfig ;;
  emit (Markdown METRIC_CARD_CSS) ;;
  emit (Title "📊 대한민국 경제활동 데이터 대시보드") ;;
  emit (Write "연도별, 지역별 취업률과 실업률 데이터를 필터링하고 시각화합니다.") ;;
  loaded <- load_and_preprocess_data file ;;
  match loaded with
  | None => st_stop
  | Some (df, region_order) =>
      emit (SidebarHeader "🔎 필터링 옵션") ;;
      newest <- first_item (all_years df) ;;
      emit (Multiselect "연도를 선택하세요 (다중 선택 가능)"
              (all_years df) [newest]) ;;
      emit (Selectbox "지역을 선택하세요" region_order 0) ;;
      emit (SidebarHeader "🎨 차트 테마 설정") ;;
      emit (Selectbox "차트 테마를 선택하세요" THEMES 1) ;;
      match selected_years with
      | [] => emit (Warning SELECT_A_YEAR) ;; st_stop
      | _ :: _ =>
          emit (Header "📈 핵심 지표 요약") ;;
          summary_cards (kpi_df df selected_years selected_region)
            selected_region ;;
          data_table (display_df df selected_years selected_region)
            selected_years selected_region ;;
          visualization (display_df df selected_years selected_region)
            selected_years selected_region selected_theme
      end
  end.

(** What a [selectbox] returns before the user touches it: the option at
    [index], or nothing when there is no such option. *)
Definition selectbox_default (options : list string) (index : nat)
  : option string := nth_error options index.

(** The default of the region selector, line 100-104. *)
Definition default_region (region_order : list string) : option string :=
  selectbox_default region_order 0.

(** ** Notions used to state the properties *)

(** The distinct values of a column in the order of their first
    occurrence, said directly: the head, then the distinct values of the
    rest without the head. *)
Fixpoint first_occurrences (col : list string) : list string :=
  match col with
  | [] => []
  | v :: rest =>
      v :: filter (fun w => negb (String.eqb w v)) (first_occurrences rest)
  end.

(** Position of the first occurrence of a label in a list. *)
Fixpoint index_of (v : string) (l : list string) : option nat :=
  match l with
  | [] => None
  | w :: rest =>
      if String.eqb w v then Some O
      else option_map S (index_of v rest)
  end.

(** The elements every run writes before it looks at the file. *)
Definition page_head : list Element :=
  [ PageConfig; Markdown METRIC_CARD_CSS;
    Title "📊 대한민국 경제활동 데이터 대시보드";
    Write "연도별, 지역별 취업률과 실업률 데이터를 필터링하고 시각화합니다." ].

(** The sidebar of a run on a loaded table. *)
Definition sidebar_elements (df : DataFrame) (region_order : list string)
  : list Element :=
  [ SidebarHeader "🔎 필터링 옵션";
    Multiselect "연도를 선택하세요 (다중 선택 가능)" (all_years df)
      [hd 0 (all_years df)];
    Selectbox "지역을 선택하세요" region_order 0;
    SidebarHeader "🎨 차트 테마 설정";
    Selectbox "차트 테마를 선택하세요" THEMES 1 ].

(** What the chart section can come to. *)
Inductive Dispatch : Type := RegionalComparison | TrendOverTime | Guidance.

(** A figure read back from its traces: bars with a line over a category
    axis, or two lines over a numeric axis. *)
Definition figure_kind (fig : Figure) : option Dispatch :=
  match traces fig with
  | [t1; t2] =>
      match trace_type t1, trace_x t1, trace_type t2, trace_x t2 with
      | Bar, Categories _, Scatter, Categories _ => Some RegionalComparison
      | Scatter, Numbers _, Scatter, Numbers _ => Some TrendOverTime
      | _, _, _, _ => None
      end
  | _ => None
  end.

Definition charts (out : list Element) : list Figure :=
  flat_map (fun e => match e with PlotlyChart fig => [fig] | _ => [] end) out.

Definition is_guidance (e : Element) : bool :=
  match e with
  | Info text => String.eqb text GUIDANCE
  | _ => false
  end.

(** What a run of the chart section showed: exactly one chart of a kind
    and no guidance, or the guidance message and no chart. *)
Definition dispatched (out : list Element) : option Dispatch :=
  match charts out, existsb is_guidance out with
  | [fig], false => figure_kind fig
  | [], true => Some Guidance
  | _, _ => None
  end.

(** Elements of sections 5 to 7: cards, table, charts, their headers and
    messages. *)
Definition is_downstream (e : Element) : bool :=
  match e with
  | MetricCard _ _ _ | Info _ | Header _ | Subheader _
  | Dataframe _ | PlotlyChart _ => true
  | _ => false
  end.

(** ** Sample inputs *)


(** One region in years for which the trend chart has no tick. *)
Definition c6_lines : list RawRow :=
  [ mkRawRow "서울" 2020 100 91 9;
    mkRawRow "서울" 2019 100 90 10 ].

(** A file in which a line already carries the nationwide label before
    the aggregate line. *)
Definition c5_both_labels : list RawRow :=
  [ mkRawRow "전국" 2023 1000 950 50;
    mkRawRow "계" 2023 1000 950 50 ].

Definition c5_lines : list RawRow :=
  [ mkRawRow "서울" 2023 100 90 10;
    mkRawRow "계" 2023 1000 950 50;
    mkRawRow "서울" 2022 100 91 9;
    mkRawRow "전국" 2022 1000 960 40;
    mkRawRow "부산" 2022 50 45 5 ].

(** A file whose first line is not the aggregate line. *)
Definition c10_lines : list RawRow :=
  [ mkRawRow "서울" 2023 100 90 10;
    mkRawRow "계" 2023 1000 950 50 ].

Definition c4_df : DataFrame := map preprocess_row c5_lines.

(** One region over two years with different populations. *)
Definition c9_lines : list RawRow :=
  [ mkRawRow "서울" 2023 300 150 150;
    mkRawRow "서울" 2022 100 90 10;
    mkRawRow "계" 2023 1000 950 50 ].

(** The two-row table of the end-to-end example. *)
Definition example_lines : list RawRow :=
  [ mkRawRow "계" 2023 1000 950 50;
    mkRawRow "RegionA" 2023 100 90 10 ].

(** ** Notions used to state the further properties *)

(** The tables and the cards a run wrote, in order. *)
Definition tables (out : list Element) : list DataFrame :=
  flat_map (fun e => match e with Dataframe rows => [rows] | _ => [] end) out.

Definition cards (out : list Element) : list (string * Q * NumberFormat) :=
  flat_map (fun e => match e with
                     | MetricCard title value fmt => [(title, value, fmt)]
                     | _ => []
                     end) out.

(** An element with the template of its figure, if it has one, replaced. *)
Definition with_template (theme : string) (e : Element) : Element :=
  match e with
  | PlotlyChart fig =>
      PlotlyChart
        {| traces := traces fig;
           layout := {| title_text := title_text (layout fig);
                        xaxis_title := xaxis_title (layout fig);
                        xaxis_ticks := xaxis_ticks (layout fig);
                        yaxis_title := yaxis_title (layout fig);
                        yaxis2_title := yaxis2_title (layout fig);
                        template := theme |} |}
  | _ => e
  end.

(** * Properties *)

Example rint_half_even :
  map rint [(1 # 2); (3 # 2); (5 # 2); (-1 # 2); (7 # 4); (-7 # 4)]%Q
  = [0; 2; 2; 0; 2; -2].
Proof. reflexivity. Qed.

Example rate_950_1000 : Qeq_bool (rate_percent 950 1000) 95 = true.
Proof. reflexivity. Qed.

Example rate_1_3 : Qeq_bool (rate_percent 1 3) (3333 # 100) = true.
Proof. reflexivity. Qed.

Example labels_differ : String.eqb AGGREGATE NATIONWIDE = false.
Proof. reflexivity. Qed.

(** ** The derived rates *)

Lemma load_some (lines : list RawRow) :
  load_and_preprocess_data (Some lines)
  = ([], Done (Some (map preprocess_row lines,
                     drop_duplicates String.eqb
                       (map region (map preprocess_row lines))))).
Proof. reflexivity. Qed.







(** Without the mask the same row would hold NaN, and a positive count
    over a zero population an infinity. *)
Example unguarded_division :
  (PrimFloat.is_nan (0 / 0)%float, PrimFloat.is_infinity (5 / 0)%float)
  = (true, true).
Proof. reflexivity. Qed.

(** 23 of 160 is 14.375 exactly; in binary64 the percentage falls just
    below it and 14.37 is stored, where exact arithmetic rounds the tie
    to 14.38. *)
Example rate_23_of_160 :
  Binary64.rate 23 160 = (1437 / 100)%float /\
  rate_percent 23 160 = (1438 # 100)%Q.
Proof. split; reflexivity. Qed.

(** ** Distinct labels in first-occurrence order *)

Lemma existsb_eqb_In (v : string) (l : list string) :
  existsb (String.eqb v) l = true <-> In v l.
Proof.
  rewrite existsb_exists. split.
  - intros [w [Hw He]]. apply String.eqb_eq in He. subst. exact Hw.
  - intros H. exists v. split; [exact H | apply String.eqb_refl].
Qed.

Lemma filter_filter {A} (f g : A -> bool) (l : list A) :
  filter f (filter g l) = filter (fun x => g x && f x) l.
Proof.
  induction l as [| a l IH]; simpl; [reflexivity |].
  destruct (g a); simpl; [destruct (f a) |]; rewrite IH; reflexivity.
Qed.

Lemma drop_duplicates_from_first_occurrences (seen col : list string) :
  drop_duplicates_from String.eqb seen col
  = filter (fun w => negb (existsb (String.eqb w) seen)) (first_occurrences col).
Proof.
  revert seen. induction col as [| v rest IH]; intros seen; simpl.
  - reflexivity.
  - rewrite filter_filter. destruct (existsb (String.eqb v) seen) eqn:E; simpl.
    + rewrite IH. apply filter_ext_in. intros w _.
      destruct (String.eqb_spec w v) as [-> | _]; simpl.
      * rewrite E. reflexivity.
      * reflexivity.
    + f_equal. rewrite IH. apply filter_ext. intros w. simpl.
      destruct (String.eqb w v); reflexivity.
Qed.

Lemma drop_duplicates_first_occurrences (col : list string) :
  drop_duplicates String.eqb col = first_occurrences col.
Proof.
  unfold drop_duplicates. rewrite drop_duplicates_from_first_occurrences.
  simpl. induction (first_occurrences col) as [| a l IH]; simpl; congruence.
Qed.

Lemma first_occurrences_In (v : string) (col : list string) :
  In v (first_occurrences col) <-> In v col.
Proof.
  induction col as [| a rest IH]; simpl; [tauto |].
  rewrite filter_In, IH, negb_true_iff.
  destruct (String.eqb_spec v a) as [-> | Hne].
  - split; auto.
  - split.
    + intros [-> | [H _]]; auto.
    + intros [-> | H]; auto.
Qed.

Lemma first_occurrences_NoDup (col : list string) :
  NoDup (first_occurrences col).
Proof.
  induction col as [| a rest IH]; simpl; constructor.
  - rewrite filter_In, String.eqb_refl. intros [_ H]. discriminate.
  - apply NoDup_filter. exact IH.
Qed.

Lemma first_occurrences_app (l1 l2 : list string) :
  first_occurrences (l1 ++ l2)
  = (first_occurrences l1
     ++ filter (fun w => negb (existsb (String.eqb w) l1))
          (first_occurrences l2))%list.
Proof.
  induction l1 as [| a l1 IH]; simpl.
  - induction (first_occurrences l2) as [| b l IHl]; simpl; congruence.
  - f_equal. rewrite IH, filter_app, filter_filter. f_equal.
    apply filter_ext. intros w.
    destruct (String.eqb w a); simpl; [apply andb_false_r | apply andb_true_r].
Qed.

Lemma index_of_app_here (v : string) (l1 l2 : list string) :
  ~ In v l1 -> index_of v (l1 ++ v :: l2) = Some (List.length l1).
Proof.
  induction l1 as [| a l1 IH]; simpl; intros H.
  - rewrite String.eqb_refl. reflexivity.
  - destruct (String.eqb_spec a v) as [-> | _]; [tauto |].
    rewrite IH by tauto. reflexivity.
Qed.

Lemma first_occurrences_position (v : string) (pre post : list string) :
  ~ In v pre ->
  index_of v (first_occurrences (pre ++ v :: post))
  = Some (List.length (first_occurrences pre)).
Proof.
  intros H. rewrite first_occurrences_app. simpl.
  destruct (existsb (String.eqb v) pre) eqn:E.
  - apply existsb_eqb_In in E. contradiction.
  - simpl. apply index_of_app_here. rewrite first_occurrences_In. exact H.
Qed.

Lemma replace_absent (old new : string) (col : list string) :
  ~ In old col -> replace old new col = col.
Proof.
  induction col as [| a col IH]; simpl; intros H; [reflexivity |].
  unfold replace_value at 1.
  destruct (String.eqb_spec a old) as [-> | _]; [tauto |].
  f_equal. apply IH. tauto.
Qed.

Lemma region_column (lines : list RawRow) :
  map region (map preprocess_row lines)
  = replace AGGREGATE NATIONWIDE (map raw_region lines).
Proof. unfold replace. rewrite !map_map. reflexivity. Qed.

Lemma cached_load_repeat (cache : Cache) (file : CsvFile) :
  let first := cached_load cache file in
  let second := cached_load (snd first) file in
  fst second = fst first /\ snd second = snd first.
Proof. destruct cache; simpl; split; reflexivity. Qed.

Lemma cached_load_fresh (file : CsvFile) :
  fst (cached_load None file) = load_and_preprocess_data file.
Proof. reflexivity. Qed.

(** C5 (amended). The region list the loader returns is the sequence of
    distinct labels, in first-occurrence order, of the region column after
    the aggregate label has been replaced by the nationwide label.  When
    the file has the aggregate label and no line before its first
    occurrence already carries the nationwide label, the nationwide label
    stands at the position the aggregate label had among the distinct
    labels of the file.  Loading the same file again through the cache
    returns the same table and list. *)
Theorem C5_region_order :
  forall (lines : list RawRow),
    let raw := map raw_region lines in
    let region_order :=
      drop_duplicates String.eqb (replace AGGREGATE NATIONWIDE raw) in
    load_and_preprocess_data (Some lines)
      = ([], Done (Some (map preprocess_row lines, region_order))) /\
    region_order = first_occurrences (replace AGGREGATE NATIONWIDE raw) /\
    NoDup region_order /\
    (forall v, In v region_order <-> In v (replace AGGREGATE NATIONWIDE raw)) /\
    (forall pre post,
       raw = (pre ++ AGGREGATE :: post)%list ->
       ~ In AGGREGATE pre -> ~ In NATIONWIDE pre ->
       index_of NATIONWIDE region_order
         = index_of AGGREGATE (drop_duplicates String.eqb raw) /\
       index_of AGGREGATE (drop_duplicates String.eqb raw)
         = Some (List.length (drop_duplicates String.eqb pre))) /\
    fst (cached_load None (Some lines))
      = load_and_preprocess_data (Some lines) /\
    (forall cache : Cache,
       let first := cached_load cache (Some lines) in
       let second := cached_load (snd first) (Some lines) in
       fst second = fst first /\ snd second = snd first).
Proof.
  intros lines raw region_order. subst region_order raw.
  split; [| split; [| split; [| split; [| split; [| split]]]]].
  - rewrite load_some, region_column. reflexivity.
  - apply drop_duplicates_first_occurrences.
  - rewrite drop_duplicates_first_occurrences. apply first_occurrences_NoDup.
  - intros v. rewrite drop_duplicates_first_occurrences.
    apply first_occurrences_In.
  - intros pre post Hraw Hagg Hnw.
    rewrite !drop_duplicates_first_occurrences, Hraw.
    unfold replace. rewrite map_app. simpl.
    unfold replace_value at 2. rewrite String.eqb_refl.
    fold (replace AGGREGATE NATIONWIDE pre).
    rewrite (replace_absent _ _ pre) by assumption.
    rewrite !first_occurrences_position by assumption.
    split; reflexivity.
  - apply cached_load_fresh.
  - intros cache. apply cached_load_repeat.
Qed.

Lemma C5_region_order_witness :
  let raw := map raw_region c5_lines in
  let region_order :=
    drop_duplicates String.eqb (replace AGGREGATE NATIONWIDE raw) in
  raw = (["서울"] ++ AGGREGATE :: ["서울"; "전국"; "부산"])%list /\
  ~ In AGGREGATE ["서울"] /\ ~ In NATIONWIDE ["서울"] /\
  region_order = ["서울"; "전국"; "부산"] /\
  index_of NATIONWIDE region_order
    = index_of AGGREGATE (drop_duplicates String.eqb raw) /\
  index_of AGGREGATE (drop_duplicates String.eqb raw) = Some 1%nat.
Proof.
  assert (Hagg : ~ In AGGREGATE ["서울"])
    by (intros [H | []]; discriminate H).
  assert (Hnw : ~ In NATIONWIDE ["서울"])
    by (intros [H | []]; discriminate H).
  split; [reflexivity |].
  split; [exact Hagg |]. split; [exact Hnw |]. split; [reflexivity |].
  exact (proj1 (proj2 (proj2 (proj2 (proj2 (C5_region_order c5_lines)))))
           ["서울"] ["서울"; "전국"; "부산"] eq_refl Hagg Hnw).
Defined.

(** C5 as stated fails on a file in which the nationwide label occurs
    before the aggregate label: the aggregate label is the second distinct
    label of the file, the nationwide label the first of the list. *)
Lemma C5_position_counterexample :
  let raw := map raw_region c5_both_labels in
  In AGGREGATE raw /\
  index_of AGGREGATE (drop_duplicates String.eqb raw) = Some 1%nat /\
  load_and_preprocess_data (Some c5_both_labels)
    = ([], Done (Some (map preprocess_row c5_both_labels, [NATIONWIDE]))) /\
  index_of NATIONWIDE [NATIONWIDE] = Some 0%nat /\
  ~ (forall lines : list RawRow,
       In AGGREGATE (map raw_region lines) ->
       index_of NATIONWIDE
         (drop_duplicates String.eqb
            (replace AGGREGATE NATIONWIDE (map raw_region lines)))
       = index_of AGGREGATE
           (drop_duplicates String.eqb (map raw_region lines))).
Proof.
  split; [right; left; reflexivity |].
  split; [reflexivity |]. split; [reflexivity |]. split; [reflexivity |].
  intros H. specialize (H c5_both_labels (or_intror (or_introl eq_refl))).
  discriminate H.
Qed.

(** ** The default of the region selector *)

Lemma default_region_first_line (l : RawRow) (lines : list RawRow) :
  default_region
    (drop_duplicates String.eqb (map region (map preprocess_row (l :: lines))))
  = Some (replace_value AGGREGATE NATIONWIDE (raw_region l)).
Proof. reflexivity. Qed.

(** The default is the nationwide label when the first line of the file
    is the aggregate (or already the nationwide) line. *)
Lemma default_region_nationwide (l : RawRow) (lines : list RawRow) :
  raw_region l = AGGREGATE \/ raw_region l = NATIONWIDE ->
  default_region
    (drop_duplicates String.eqb (map region (map preprocess_row (l :: lines))))
  = Some NATIONWIDE.
Proof.
  intros [H | H]; rewrite default_region_first_line, H; reflexivity.
Qed.

(** C10 (what the script does on a file whose first line is a specific
    region): the region selector offers that region first and index 0
    selects it, not the nationwide label. *)
Theorem C10_default_region_first_label :
  load_and_preprocess_data (Some c10_lines)
    = ([], Done (Some (map preprocess_row c10_lines, ["서울"; NATIONWIDE]))) /\
  default_region ["서울"; NATIONWIDE] = Some "서울" /\
  default_region ["서울"; NATIONWIDE] <> Some NATIONWIDE.
Proof.
  split; [reflexivity |]. split; [reflexivity |]. discriminate.
Qed.

(** ** Running the script *)

Lemma summary_cards_done kpi selected_region :
  snd (summary_cards kpi selected_region) = Done tt.
Proof. destruct kpi; reflexivity. Qed.

Lemma data_table_done display selected_years selected_region :
  snd (data_table display selected_years selected_region) = Done tt.
Proof. reflexivity. Qed.

Lemma visualization_done display selected_years selected_region selected_theme :
  snd (visualization display selected_years selected_region selected_theme)
  = Done tt.
Proof.
  unfold visualization. simpl.
  destruct ((List.length selected_years =? 1)%nat
            && String.eqb selected_region NATIONWIDE); [reflexivity |].
  destruct ((1 <? List.length selected_years)%nat
            && negb (String.eqb selected_region NATIONWIDE)); reflexivity.
Qed.

Lemma insert_sorted_cons {A} (leb : A -> A -> bool) (x : A) (l : list A) :
  exists y rest, insert_sorted leb x l = y :: rest.
Proof.
  destruct l as [| a l]; simpl; [eauto |]. destruct (leb x a); eauto.
Qed.

Lemma all_years_cons (r : Row) (df : DataFrame) :
  exists newest rest, all_years (r :: df) = newest :: rest.
Proof.
  unfold all_years, sorted_reverse, drop_duplicates. simpl.
  apply insert_sorted_cons.
Qed.

Lemma main_loaded (l : RawRow) (lines : list RawRow) (y : Z) (ys : list Z)
  (selected_region selected_theme : string) :
  let df := map preprocess_row (l :: lines) in
  let region_order := drop_duplicates String.eqb (map region df) in
  let selected_years := y :: ys in
  main (Some (l :: lines)) selected_years selected_region selected_theme
  = ((page_head ++ sidebar_elements df region_order
      ++ [Header "📈 핵심 지표 요약"]
      ++ fst (summary_cards (kpi_df df selected_years selected_region)
                selected_region)
      ++ fst (data_table (display_df df selected_years selected_region)
                selected_years selected_region)
      ++ fst (visualization (display_df df selected_years selected_region)
                selected_years selected_region selected_theme))%list,
     Done tt).
Proof.
  intros df region_order selected_years.
  destruct (all_years_cons (preprocess_row l) (map preprocess_row lines))
    as [newest [rest Hy]].
  change (preprocess_row l :: map preprocess_row lines) with df in Hy.
  unfold main, sidebar_elements. rewrite load_some.
  fold df. fold region_order.
  cbn -[all_years summary_cards data_table visualization kpi_df display_df
        df region_order].
  rewrite Hy.
  cbn -[all_years summary_cards data_table visualization kpi_df display_df
        df region_order].
  pose proof (summary_cards_done (kpi_df df selected_years selected_region)
                selected_region) as Hc.
  pose proof (data_table_done (display_df df selected_years selected_region)
                selected_years selected_region) as Ht.
  pose proof (visualization_done (display_df df selected_years selected_region)
                selected_years selected_region selected_theme) as Hv.
  destruct (summary_cards _ _) as [oc rc].
  destruct (data_table _ _ _) as [ot rt].
  destruct (visualization _ _ _ _) as [ov rv].
  simpl in Hc, Ht, Hv. subst rc rt rv. reflexivity.
Qed.

(** ** Filtering *)

Lemma isin_In (values : list Z) (v : Z) : isin values v = true <-> In v values.
Proof.
  unfold isin. rewrite existsb_exists. split.
  - intros [w [Hw He]]. apply Z.eqb_eq in He. subst. exact Hw.
  - intros H. exists v. split; [exact H | apply Z.eqb_refl].
Qed.

Lemma filter_none {A} (f : A -> bool) (l : list A) :
  (forall x, In x l -> f x = false) -> filter f l = [].
Proof.
  induction l as [| a l IH]; simpl; intros H; [reflexivity |].
  rewrite (H a) by (left; reflexivity).
  apply IH. intros x Hx. apply H. right. exact Hx.
Qed.

Lemma display_df_filter (df : DataFrame) (selected_years : list Z)
  (selected_region : string) :
  display_df df selected_years selected_region
  = filter (fun r =>
              isin selected_years (year r)
              && (String.eqb selected_region NATIONWIDE
                  || String.eqb (region r) selected_region)) df.
Proof.
  unfold display_df, filtered_df.
  destruct (String.eqb selected_region NATIONWIDE); simpl.
  - apply filter_ext. intros r. rewrite andb_true_r. reflexivity.
  - rewrite filter_filter. reflexivity.
Qed.

(** C4. The display subset holds exactly the rows of the table whose year
    is selected and, unless the nationwide label is selected, whose region
    is the selected one; when no row qualifies it is the empty subset. *)
Theorem C4_display_subset :
  forall (df : DataFrame) (selected_years : list Z) (selected_region : string),
    let keep := fun r =>
      isin selected_years (year r)
      && (String.eqb selected_region NATIONWIDE
          || String.eqb (region r) selected_region) in
    display_df df selected_years selected_region = filter keep df /\
    (forall r, In r (display_df df selected_years selected_region) <->
       In r df /\ In (year r) selected_years /\
       (selected_region = NATIONWIDE \/ region r = selected_region)) /\
    ((forall r, In r df -> keep r = false) ->
     display_df df selected_years selected_region = []).
Proof.
  intros df selected_years selected_region keep.
  split; [apply display_df_filter |]. split.
  - intros r. rewrite display_df_filter, filter_In.
    rewrite andb_true_iff, orb_true_iff, isin_In, !String.eqb_eq. tauto.
  - intros H. rewrite display_df_filter. apply filter_none. exact H.
Qed.

Lemma C4_display_subset_witness :
  display_df c4_df [2023; 2022] NATIONWIDE = c4_df /\
  display_df c4_df [2022] "부산"
    = [preprocess_row (mkRawRow "부산" 2022 50 45 5)] /\
  display_df c4_df [2023] "부산" = [].
Proof.
  split; [reflexivity |]. split; [reflexivity |].
  apply (C4_display_subset c4_df [2023] "부산").
  intros r Hr. simpl in Hr.
  repeat (destruct Hr as [<- | Hr]; [reflexivity |]). destruct Hr.
Defined.

(** C3. With the nationwide label selected, the KPI subset holds exactly
    the rows of the display subset labelled nationwide; with a specific
    region selected it is the display subset. *)
Theorem C3_kpi_subset :
  forall (df : DataFrame) (selected_years : list Z) (selected_region : string),
    let display := display_df df selected_years selected_region in
    let kpi := kpi_df df selected_years selected_region in
    (selected_region = NATIONWIDE ->
       kpi = filter (fun r => String.eqb (region r) NATIONWIDE) display /\
       (forall r, In r kpi <-> In r display /\ region r = NATIONWIDE)) /\
    (selected_region <> NATIONWIDE -> kpi = display).
Proof.
  intros df selected_years selected_region display kpi.
  subst display kpi. unfold kpi_df. split.
  - intros ->. rewrite String.eqb_refl. split; [reflexivity |].
    intros r. rewrite filter_In, String.eqb_eq. tauto.
  - intros H. apply String.eqb_neq in H. rewrite H. reflexivity.
Qed.

Lemma C3_kpi_subset_witness :
  kpi_df c4_df [2023; 2022] NATIONWIDE
    = [ preprocess_row (mkRawRow "계" 2023 1000 950 50);
        preprocess_row (mkRawRow "전국" 2022 1000 960 40) ] /\
  List.length (display_df c4_df [2023; 2022] NATIONWIDE) = 5%nat /\
  kpi_df c4_df [2023; 2022] "서울" = display_df c4_df [2023; 2022] "서울".
Proof.
  split; [exact (proj1 (proj1 (C3_kpi_subset c4_df [2023; 2022] NATIONWIDE)
                           eq_refl)) |].
  split; [reflexivity |].
  apply (C3_kpi_subset c4_df [2023; 2022] "서울"). discriminate.
Defined.

(** ** The chart section *)

Lemma length_one {A} (l : list A) :
  (List.length l =? 1)%nat = true <-> exists x, l = [x].
Proof.
  destruct l as [| x [| y l]]; simpl; split;
    try discriminate; try (intros [z H]; discriminate H); eauto.
Qed.

Lemma visualization_trend (display : DataFrame) (y1 y2 : Z) (ys : list Z)
  (selected_region selected_theme : string) :
  selected_region <> NATIONWIDE ->
  visualization display (y1 :: y2 :: ys) selected_region selected_theme
  = ([ Header "📊 데이터 시각화";
       Subheader (selected_region ++ " 연도별 취업률/실업률 추이 (주축/보조축)");
       PlotlyChart (trend_figure display selected_region selected_theme) ],
     Done tt).
Proof.
  intros H. apply String.eqb_neq in H. unfold visualization.
  rewrite H. reflexivity.
Qed.

(** C2. For a non-empty year selection the chart section shows the
    regional comparison exactly when one year and the nationwide label are
    selected, the trend exactly when two or more years and a specific
    region are selected, and otherwise the guidance message and no chart. *)
Theorem C2_chart_dispatch :
  forall (display : DataFrame) (y : Z) (ys : list Z)
         (selected_region selected_theme : string),
    let selected_years := y :: ys in
    let out :=
      fst (visualization display selected_years selected_region selected_theme) in
    let single := List.length selected_years = 1%nat in
    let several := (1 < List.length selected_years)%nat in
    let nationwide := selected_region = NATIONWIDE in
    (dispatched out = Some RegionalComparison <-> single /\ nationwide) /\
    (dispatched out = Some TrendOverTime <-> several /\ ~ nationwide) /\
    (dispatched out = Some Guidance <->
       (single /\ ~ nationwide) \/ (several /\ nationwide)) /\
    (single /\ nationwide ->
       charts out
       = [regional_comparison_figure display selected_years selected_theme]) /\
    (several /\ ~ nationwide ->
       charts out = [trend_figure display selected_region selected_theme]) /\
    ((single /\ ~ nationwide) \/ (several /\ nationwide) ->
       out = [Header "📊 데이터 시각화"; Info GUIDANCE]).
Proof.
  intros display y ys selected_region selected_theme.
  cbv zeta. unfold visualization.
  destruct (String.eqb_spec selected_region NATIONWIDE) as [E | E];
    destruct ys as [| y2 ys]; cbn [List.length Nat.eqb Nat.ltb Nat.leb
                                   andb negb];
    cbn -[regional_comparison_figure trend_figure GUIDANCE str].
  all: repeat split; intros; try reflexivity; try discriminate;
    try (intuition (first [lia | congruence | discriminate])).
Qed.

Lemma C2_chart_dispatch_witness :
  let quadrant years selected_region :=
    dispatched (fst (visualization c4_df years selected_region "plotly_white")) in
  quadrant [2023] NATIONWIDE = Some RegionalComparison /\
  quadrant [2023; 2022] "서울" = Some TrendOverTime /\
  quadrant [2023] "서울" = Some Guidance /\
  quadrant [2023; 2022] NATIONWIDE = Some Guidance.
Proof.
  cbv zeta.
  assert (Hn : "서울" <> NATIONWIDE) by discriminate.
  split; [| split; [| split]].
  - apply (C2_chart_dispatch c4_df 2023 [] NATIONWIDE "plotly_white").
    split; reflexivity.
  - apply (C2_chart_dispatch c4_df 2023 [2022] "서울" "plotly_white").
    split; [simpl; lia | exact Hn].
  - apply (C2_chart_dispatch c4_df 2023 [] "서울" "plotly_white").
    left. split; [reflexivity | exact Hn].
  - apply (C2_chart_dispatch c4_df 2023 [2022] NATIONWIDE "plotly_white").
    right. split; [simpl; lia | reflexivity].
Defined.

(** ** Sorting by year *)

Section SortBy.
Context {A : Type} (leb : A -> A -> bool).
Hypothesis leb_total : forall a b, leb a b = false -> leb b a = true.

Lemma insert_sorted_perm (x : A) (l : list A) :
  Permutation (x :: l) (insert_sorted leb x l).
Proof.
  induction l as [| y l IH]; simpl; [reflexivity |].
  destruct (leb x y); [reflexivity |].
  rewrite perm_swap. apply perm_skip. exact IH.
Qed.

Lemma sort_by_perm (l : list A) : Permutation l (sort_by leb l).
Proof.
  induction l as [| x l IH]; simpl; [reflexivity |].
  rewrite <- insert_sorted_perm. apply perm_skip. exact IH.
Qed.

Lemma insert_sorted_HdRel (a x : A) (l : list A) :
  leb a x = true -> HdRel (fun u v => leb u v = true) a l ->
  HdRel (fun u v => leb u v = true) a (insert_sorted leb x l).
Proof.
  intros Hax Hl. destruct l as [| y l]; simpl.
  - constructor. exact Hax.
  - destruct (leb x y); constructor; [exact Hax |].
    inversion Hl; assumption.
Qed.

Lemma insert_sorted_Sorted (x : A) (l : list A) :
  Sorted (fun u v => leb u v = true) l ->
  Sorted (fun u v => leb u v = true) (insert_sorted leb x l).
Proof.
  induction l as [| y l IH]; simpl; intros Hs.
  - repeat constructor.
  - destruct (leb x y) eqn:E.
    + constructor; [exact Hs | constructor; exact E].
    + inversion Hs as [| ? ? Hs' Hhd]; subst. constructor.
      * apply IH. exact Hs'.
      * apply insert_sorted_HdRel; [apply leb_total; exact E | exact Hhd].
Qed.

Lemma sort_by_Sorted (l : list A) :
  Sorted (fun u v => leb u v = true) (sort_by leb l).
Proof.
  induction l as [| x l IH]; simpl; [constructor |].
  apply insert_sorted_Sorted. exact IH.
Qed.

End SortBy.

Lemma sort_values_year_perm (df : DataFrame) :
  Permutation df (sort_values_year df).
Proof. apply sort_by_perm. Qed.

Lemma sort_values_year_ascending (df : DataFrame) :
  StronglySorted Z.le (map year (sort_values_year df)).
Proof.
  assert (H : Sorted (fun a b => year a <= year b) (sort_values_year df)).
  { eapply Sorted_ind with
      (P := fun l => Sorted (fun a b => year a <= year b) l);
      [constructor | |
       apply (sort_by_Sorted (fun a b => year a <=? year b));
       intros a b Hab; apply Z.leb_gt in Hab; apply Z.leb_le; lia].
    intros a l _ IH Hhd. constructor; [exact IH |].
    destruct Hhd; constructor. apply Z.leb_le. assumption. }
  apply Sorted_StronglySorted; [intros a b c; apply Z.le_trans |].
  induction H as [| a l Hs IH Hhd]; simpl; constructor; [exact IH |].
  destruct Hhd; simpl; constructor. assumption.
Qed.

(** C6 (amended). In the trend chart (two or more years, a specific
    region) both series are drawn over the numeric years of the displayed
    rows in ascending order, and the axis carries explicit ticks for the
    fixed years 2021, 2022, 2023 and 2024 with their labels, whatever
    years the data holds: a plotted year has a tick exactly when it lies
    between 2021 and 2024. *)
Theorem C6_trend_axis :
  forall (display : DataFrame) (y1 y2 : Z) (ys : list Z)
         (selected_region selected_theme : string),
    selected_region <> NATIONWIDE ->
    let selected_years := y1 :: y2 :: ys in
    let fig := trend_figure display selected_region selected_theme in
    let plot_df := sort_values_year display in
    charts (fst (visualization display selected_years selected_region
                   selected_theme)) = [fig] /\
    Permutation display plot_df /\
    StronglySorted Z.le (map year plot_df) /\
    Forall (fun t => trace_x t = Numbers (map year plot_df)) (traces fig) /\
    map trace_y (traces fig)
      = [map employment_rate plot_df; map unemployment_rate plot_df] /\
    xaxis_ticks (layout fig)
      = Some ([2021; 2022; 2023; 2024], map str [2021; 2022; 2023; 2024]) /\
    (forall y, In y (map year plot_df) ->
       (In y [2021; 2022; 2023; 2024] <-> 2021 <= y <= 2024)).
Proof.
  intros display y1 y2 ys selected_region selected_theme Hne. cbv zeta.
  split; [| split; [| split; [| split; [| split; [| split]]]]].
  - rewrite visualization_trend by exact Hne. reflexivity.
  - apply sort_values_year_perm.
  - apply sort_values_year_ascending.
  - simpl. repeat constructor.
  - reflexivity.
  - reflexivity.
  - intros y _. simpl. lia.
Qed.

Lemma C6_trend_axis_witness :
  let display := display_df c4_df [2023; 2022] "서울" in
  map year display = [2023; 2022] /\
  map year (sort_values_year display) = [2022; 2023] /\
  charts (fst (visualization display [2023; 2022] "서울" "plotly_white"))
    = [trend_figure display "서울" "plotly_white"] /\
  StronglySorted Z.le (map year (sort_values_year display)).
Proof.
  cbv zeta.
  assert (Hn : "서울" <> NATIONWIDE) by discriminate.
  pose proof (C6_trend_axis (display_df c4_df [2023; 2022] "서울")
                2023 2022 [] "서울" "plotly_white" Hn) as H.
  cbv zeta in H.
  split; [reflexivity |]. split; [reflexivity |].
  split; [exact (proj1 H) | exact (proj1 (proj2 (proj2 H)))].
Defined.

(** C6 as stated fails on data outside 2021-2024: for the years 2019 and
    2020 of one region the points are drawn at 2019 and 2020 and none of
    them has a tick. *)
Lemma C6_ticks_counterexample :
  let display := display_df (map preprocess_row c6_lines) [2019; 2020] "서울" in
  let fig := trend_figure display "서울" "plotly_white" in
  charts (fst (visualization display [2019; 2020] "서울" "plotly_white"))
    = [fig] /\
  map trace_x (traces fig) = [Numbers [2019; 2020]; Numbers [2019; 2020]] /\
  xaxis_ticks (layout fig)
    = Some ([2021; 2022; 2023; 2024], ["2021"; "2022"; "2023"; "2024"]) /\
  ~ (forall (display : DataFrame) (selected_region selected_theme : string)
            (y : Z),
       selected_region <> NATIONWIDE ->
       In y (map year display) ->
       exists tickvals ticktext,
         xaxis_ticks (layout (trend_figure display selected_region
                                selected_theme))
           = Some (tickvals, ticktext) /\
         In y tickvals).
Proof.
  cbv zeta.
  split; [reflexivity |]. split; [reflexivity |]. split; [reflexivity |].
  intros H.
  assert (Hn : "서울" <> NATIONWIDE) by discriminate.
  destruct (H (display_df (map preprocess_row c6_lines) [2019; 2020] "서울")
              "서울" "plotly_white" 2019 Hn (or_intror (or_introl eq_refl)))
    as [tickvals [ticktext [E Hin]]].
  injection E as <- _. simpl in Hin.
  repeat (destruct Hin as [Hin | Hin]; [discriminate Hin |]). exact Hin.
Qed.

(** ** Runs that end early *)

Lemma main_empty_selection (l : RawRow) (lines : list RawRow)
  (selected_region selected_theme : string) :
  let df := map preprocess_row (l :: lines) in
  let region_order := drop_duplicates String.eqb (map region df) in
  main (Some (l :: lines)) [] selected_region selected_theme
  = ((page_head ++ sidebar_elements df region_order
      ++ [Warning SELECT_A_YEAR])%list, Stopped).
Proof.
  intros df region_order.
  destruct (all_years_cons (preprocess_row l) (map preprocess_row lines))
    as [newest [rest Hy]].
  change (preprocess_row l :: map preprocess_row lines) with df in Hy.
  unfold main, sidebar_elements. rewrite load_some.
  fold df. fold region_order.
  cbn -[all_years df region_order]. rewrite Hy.
  cbn -[all_years df region_order]. reflexivity.
Qed.

Lemma main_file_absent (selected_years : list Z)
  (selected_region selected_theme : string) :
  main None selected_years selected_region selected_theme
  = ((page_head ++ [Error FILE_NOT_FOUND])%list, Stopped).
Proof. reflexivity. Qed.

Lemma main_empty_table (selected_years : list Z)
  (selected_region selected_theme : string) :
  main (Some []) selected_years selected_region selected_theme
  = ((page_head ++ [SidebarHeader "🔎 필터링 옵션"])%list, Raised IndexError).
Proof. reflexivity. Qed.

(** C7. With no year selected the run writes the warning and stops there:
    after the sidebar nothing but the warning is on the page, and no run
    with an empty year selection shows a header, card, message, table or
    chart of the later sections. *)
Theorem C7_empty_year_selection :
  forall (selected_region selected_theme : string),
    (forall (l : RawRow) (lines : list RawRow),
       let df := map preprocess_row (l :: lines) in
       let region_order := drop_duplicates String.eqb (map region df) in
       main (Some (l :: lines)) [] selected_region selected_theme
       = ((page_head ++ sidebar_elements df region_order
           ++ [Warning SELECT_A_YEAR])%list, Stopped)) /\
    (forall file : CsvFile,
       let run := main file [] selected_region selected_theme in
       existsb is_downstream (fst run) = false /\
       charts (fst run) = [] /\
       snd run <> Done tt).
Proof.
  intros selected_region selected_theme. split.
  - intros l lines. apply main_empty_selection.
  - intros [[| l lines] |]; cbv zeta.
    + rewrite main_empty_table.
      split; [reflexivity | split; [reflexivity | discriminate]].
    + rewrite main_empty_selection.
      split; [reflexivity | split; [reflexivity | discriminate]].
    + rewrite main_file_absent.
      split; [reflexivity | split; [reflexivity | discriminate]].
Qed.

(** C8. When the input file is absent the loader writes the
    file-not-found error and returns no table, and the run stops right
    after it: the page holds the page head and the error, and no sidebar,
    card, table or chart. *)
Theorem C8_file_absent :
  forall (selected_years : list Z) (selected_region selected_theme : string),
    let run := main None selected_years selected_region selected_theme in
    load_and_preprocess_data None = ([Error FILE_NOT_FOUND], Done None) /\
    run = ((page_head ++ [Error FILE_NOT_FOUND])%list, Stopped) /\
    existsb is_downstream (fst run) = false /\
    charts (fst run) = [].
Proof.
  intros selected_years selected_region selected_theme. cbv zeta.
  rewrite main_file_absent.
  split; [reflexivity | split; [reflexivity | split; reflexivity]].
Qed.

(** ** Summary cards *)

Lemma mean_times_length (col : list Q) :
  col <> [] ->
  mean col * inject_Z (Z.of_nat (List.length col)) == sum col.
Proof.
  intros H. unfold mean. field.
  destruct col as [| a col]; [contradiction |].
  simpl List.length. rewrite Nat2Z.inj_succ.
  intros E. unfold Qeq in E. simpl in E. lia.
Qed.

Lemma kpi_df_incl (df : DataFrame) (selected_years : list Z)
  (selected_region : string) (r : Row) :
  In r (kpi_df df selected_years selected_region) -> In r df.
Proof.
  unfold kpi_df, display_df, filtered_df.
  destruct (String.eqb selected_region NATIONWIDE);
    repeat (rewrite filter_In); tauto.
Qed.

Lemma loaded_rates (lines : list RawRow) (r : Row) :
  In r (map preprocess_row lines) ->
  employment_rate r = rate_percent (employed r) (econ_active r) /\
  unemployment_rate r = rate_percent (unemployed r) (econ_active r).
Proof.
  intros H. apply in_map_iff in H. destruct H as [raw [<- _]].
  split; reflexivity.
Qed.

(** C9. For a non-empty KPI subset the three cards show the plain means of
    the employment-rate column, the unemployment-rate column and the
    population column of the subset, where the rate columns are the
    two-decimal rates derived per row at load time; such a mean differs in
    general from the rate of the summed counts. *)
Theorem C9_summary_means :
  (forall (lines : list RawRow) (selected_years : list Z)
          (selected_region : string),
     let kpi :=
       kpi_df (map preprocess_row lines) selected_years selected_region in
     let n := inject_Z (Z.of_nat (List.length kpi)) in
     kpi <> [] ->
     summary_cards kpi selected_region
     = ([ MetricCard (selected_region ++ " 평균 취업률")
            (mean (map employment_rate kpi)) Percent2;
          MetricCard (selected_region ++ " 평균 실업률")
            (mean (map unemployment_rate kpi)) Percent2;
          MetricCard (selected_region ++ " 평균 경제활동인구")
            (mean (map econ_active kpi)) Thousands0 ], Done tt) /\
     mean (map employment_rate kpi) * n
       == sum (map (fun r => rate_percent (employed r) (econ_active r)) kpi) /\
     mean (map unemployment_rate kpi) * n
       == sum (map (fun r => rate_percent (unemployed r) (econ_active r)) kpi) /\
     mean (map econ_active kpi) * n == sum (map econ_active kpi)) /\
  (exists (lines : list RawRow) (selected_years : list Z)
          (selected_region : string),
     let kpi :=
       kpi_df (map preprocess_row lines) selected_years selected_region in
     kpi <> [] /\
     ~ mean (map employment_rate kpi)
       == rate_percent (sum (map employed kpi)) (sum (map econ_active kpi))).
Proof.
  split.
  - intros lines selected_years selected_region kpi n Hne.
    assert (Hrows : forall r, In r kpi ->
              employment_rate r = rate_percent (employed r) (econ_active r) /\
              unemployment_rate r
              = rate_percent (unemployed r) (econ_active r)).
    { intros r Hr. apply (loaded_rates lines).
      apply (kpi_df_incl _ selected_years selected_region). exact Hr. }
    assert (Hlen : forall (f : Row -> Q),
              inject_Z (Z.of_nat (List.length (map f kpi))) = n).
    { intros f. rewrite length_map. reflexivity. }
    split; [| split; [| split]].
    + destruct kpi; [contradiction | reflexivity].
    + rewrite <- (map_ext_in _ _ kpi (fun r Hr => proj1 (Hrows r Hr))).
      rewrite <- (Hlen employment_rate). apply mean_times_length.
      destruct kpi; [contradiction | discriminate].
    + rewrite <- (map_ext_in _ _ kpi (fun r Hr => proj2 (Hrows r Hr))).
      rewrite <- (Hlen unemployment_rate). apply mean_times_length.
      destruct kpi; [contradiction | discriminate].
    + rewrite <- (Hlen econ_active). apply mean_times_length.
      destruct kpi; [contradiction | discriminate].
  - exists c9_lines, [2023; 2022], "서울". cbv zeta.
    split; [discriminate |].
    intros H. apply Qeq_bool_iff in H. vm_compute in H. discriminate H.
Qed.

Lemma C9_summary_means_witness :
  let kpi := kpi_df (map preprocess_row c9_lines) [2023; 2022] "서울" in
  kpi <> [] /\
  map employment_rate kpi = [(5000 # 100); (9000 # 100)]%Q /\
  summary_cards kpi "서울"
  = ([ MetricCard "서울 평균 취업률" (mean (map employment_rate kpi)) Percent2;
       MetricCard "서울 평균 실업률" (mean (map unemployment_rate kpi)) Percent2;
       MetricCard "서울 평균 경제활동인구" (mean (map econ_active kpi)) Thousands0 ],
     Done tt) /\
  mean (map employment_rate kpi) == 70 /\
  rate_percent (sum (map employed kpi)) (sum (map econ_active kpi)) == 60.
Proof.
  cbv zeta.
  assert (Hne : kpi_df (map preprocess_row c9_lines) [2023; 2022] "서울" <> [])
    by discriminate.
  split; [exact Hne |]. split; [reflexivity |].
  split; [exact (proj1 (proj1 C9_summary_means c9_lines [2023; 2022] "서울"
                          Hne)) |].
  split; reflexivity.
Defined.

(** ** A run from end to end *)

(** One year and the nationwide label on the two-row table: the cards
    show the nationwide row alone, the table both rows, and the chart one
    bar, for RegionA at 90. *)
Example run_nationwide_2023 :
  let df := map preprocess_row example_lines in
  let out := fst (main (Some example_lines) [2023] NATIONWIDE "plotly_white") in
  kpi_df df [2023] NATIONWIDE
    = [preprocess_row (mkRawRow "계" 2023 1000 950 50)] /\
  Qeq_bool (avg_employment_rate (kpi_df df [2023] NATIONWIDE)) 95 = true /\
  Qeq_bool (avg_unemployment_rate (kpi_df df [2023] NATIONWIDE)) 5 = true /\
  In (Dataframe df) out /\
  dispatched out = Some RegionalComparison /\
  map (fun fig => map (fun t => (trace_x t, trace_y t)) (traces fig))
      (charts out)
  = [[ (Categories ["RegionA"], [(9000 # 100)%Q]);
       (Categories ["RegionA"], [(1000 # 100)%Q]) ]].
Proof.
  cbv zeta. repeat split; try reflexivity.
  vm_compute. do 16 right. left. reflexivity.
Qed.

(** * Further properties of the script *)

(** ** The loader: labels *)

Lemma replace_value_not_old (old new v : string) :
  new <> old -> replace_value old new v <> old.
Proof.
  intros Hne. unfold replace_value.
  destruct (String.eqb_spec v old) as [-> | H]; [exact Hne | exact H].
Qed.

(** X1. After loading, the aggregate label is gone: no row of the table
    and no entry of the region list carries it.  The region list holds
    exactly the labels that occur in the table, so the categorical
    conversion of line 67 finds every label among its categories. *)
Theorem loader_labels :
  forall (lines : list RawRow) out (df : DataFrame) region_order,
    load_and_preprocess_data (Some lines)
      = (out, Done (Some (df, region_order))) ->
    (forall r, In r df -> region r <> AGGREGATE /\ In (region r) region_order) /\
    ~ In AGGREGATE region_order /\
    (forall v, In v region_order -> exists r, In r df /\ region r = v) /\
    List.length df = List.length lines.
Proof.
  intros lines out df region_order Hload.
  rewrite load_some in Hload. injection Hload as _ Hdf Hord.
  subst df region_order.
  rewrite drop_duplicates_first_occurrences.
  assert (Hrow : forall r, In r (map preprocess_row lines) ->
                           region r <> AGGREGATE).
  { intros r Hr. apply in_map_iff in Hr. destruct Hr as [raw [<- _]].
    simpl. apply replace_value_not_old. discriminate. }
  split; [| split; [| split]].
  - intros r Hr. split; [apply Hrow; exact Hr |].
    rewrite first_occurrences_In. apply in_map. exact Hr.
  - intros H. rewrite first_occurrences_In in H.
    apply in_map_iff in H. destruct H as [r [Hreg Hr]].
    exact (Hrow r Hr Hreg).
  - intros v H. rewrite first_occurrences_In in H.
    apply in_map_iff in H. destruct H as [r [Hreg Hr]]. eauto.
  - apply length_map.
Qed.

Lemma loader_labels_witness :
  let df := map preprocess_row c5_lines in
  let region_order := ["서울"; "전국"; "부산"] in
  load_and_preprocess_data (Some c5_lines)
    = ([], Done (Some (df, region_order))) /\
  ~ In AGGREGATE region_order /\
  List.length df = 5%nat.
Proof.
  cbv zeta.
  pose proof (loader_labels c5_lines [] (map preprocess_row c5_lines)
                ["서울"; "전국"; "부산"] eq_refl) as H.
  split; [reflexivity |].
  split; [exact (proj1 (proj2 H)) | exact (proj2 (proj2 (proj2 H)))].
Defined.

(** The renaming merges two labels only when they are the aggregate and
    the nationwide label. *)
Lemma replace_value_merge (a b : string) :
  replace_value AGGREGATE NATIONWIDE a = replace_value AGGREGATE NATIONWIDE b ->
  a = b \/ (a = AGGREGATE /\ b = NATIONWIDE) \/ (a = NATIONWIDE /\ b = AGGREGATE).
Proof.
  unfold replace_value.
  destruct (String.eqb_spec a AGGREGATE) as [-> | Ha];
    destruct (String.eqb_spec b AGGREGATE) as [-> | Hb]; intros H; auto.
Qed.

Lemma filter_map_eqb (f : string -> string) (a : string) (l : list string) :
  (forall w, In w l -> f w = f a -> w = a) ->
  filter (fun w => negb (String.eqb w (f a))) (map f l)
  = map f (filter (fun w => negb (String.eqb w a)) l).
Proof.
  induction l as [| w l IH]; intros Hinj; simpl; [reflexivity |].
  rewrite IH by (intros x Hx; apply Hinj; right; exact Hx).
  destruct (String.eqb_spec w a) as [-> | Hne].
  - rewrite String.eqb_refl. reflexivity.
  - destruct (String.eqb_spec (f w) (f a)) as [E | _]; [| reflexivity].
    exfalso. apply Hne. apply Hinj; [left; reflexivity | exact E].
Qed.

Lemma first_occurrences_map (f : string -> string) (col : list string) :
  (forall a b, In a col -> In b col -> f a = f b -> a = b) ->
  first_occurrences (map f col) = map f (first_occurrences col).
Proof.
  induction col as [| a rest IH]; intros Hinj; simpl; [reflexivity |].
  f_equal. rewrite IH by (intros x y Hx Hy; apply Hinj; right; assumption).
  apply filter_map_eqb. intros w Hw E.
  apply Hinj; [right; apply first_occurrences_In; exact Hw
              | left; reflexivity | exact E].
Qed.

(** X2. When no line of the file carries the nationwide label already,
    the renaming keeps every distinct label at its place: the region list
    is the list of distinct labels of the file with the aggregate label
    replaced where it stands. *)
Theorem region_order_keeps_places :
  forall (lines : list RawRow),
    let raw := map raw_region lines in
    ~ In NATIONWIDE raw ->
    drop_duplicates String.eqb (map region (map preprocess_row lines))
    = replace AGGREGATE NATIONWIDE (drop_duplicates String.eqb raw).
Proof.
  intros lines raw Hnw. subst raw.
  rewrite region_column, !drop_duplicates_first_occurrences.
  unfold replace. apply first_occurrences_map.
  intros a b Ha Hb E.
  destruct (replace_value_merge a b E) as [H | [[_ H] | [H _]]];
    [exact H | subst b; contradiction | subst a; contradiction].
Qed.

Lemma region_order_keeps_places_witness :
  ~ In NATIONWIDE (map raw_region c10_lines) /\
  drop_duplicates String.eqb (map raw_region c10_lines) = ["서울"; "계"] /\
  drop_duplicates String.eqb (map region (map preprocess_row c10_lines))
  = ["서울"; "전국"].
Proof.
  assert (H : ~ In NATIONWIDE (map raw_region c10_lines))
    by (intros [H | [H | []]]; discriminate H).
  split; [exact H |]. split; [reflexivity |].
  exact (region_order_keeps_places c10_lines H).
Defined.

(** ** The year selector *)

Section DropDuplicatesFacts.
Context {A : Type} (eqb : A -> A -> bool).
Hypothesis eqb_eq : forall a b, eqb a b = true <-> a = b.

Lemma existsb_eqb_iff (v : A) (seen : list A) :
  existsb (eqb v) seen = true <-> In v seen.
Proof.
  rewrite existsb_exists. split.
  - intros [w [Hw He]]. apply eqb_eq in He. subst. exact Hw.
  - intros H. exists v. split; [exact H | apply eqb_eq; reflexivity].
Qed.

Lemma drop_duplicates_from_In (x : A) (seen col : list A) :
  In x (drop_duplicates_from eqb seen col) <-> In x col /\ ~ In x seen.
Proof.
  revert seen. induction col as [| v rest IH]; intros seen; simpl.
  - tauto.
  - destruct (existsb (eqb v) seen) eqn:E.
    + apply existsb_eqb_iff in E. rewrite IH. split.
      * tauto.
      * intros [[-> | H] Hn]; [contradiction | tauto].
    + assert (Hv : ~ In v seen).
      { intros H. apply existsb_eqb_iff in H. congruence. }
      simpl. rewrite IH. simpl. split.
      * intros [-> | [H Hn]]; [tauto | tauto].
      * intros [[-> | H] Hn]; [tauto |].
        destruct (eqb v x) eqn:Evx.
        -- apply eqb_eq in Evx. tauto.
        -- right. split; [exact H |]. intros [-> | H']; [| tauto].
           assert (eqb x x = true) by (apply eqb_eq; reflexivity). congruence.
Qed.

Lemma drop_duplicates_from_NoDup (seen col : list A) :
  NoDup (drop_duplicates_from eqb seen col).
Proof.
  revert seen. induction col as [| v rest IH]; intros seen; simpl.
  - constructor.
  - destruct (existsb (eqb v) seen); [apply IH |].
    constructor; [| apply IH].
    rewrite drop_duplicates_from_In. simpl. tauto.
Qed.

End DropDuplicatesFacts.

Lemma descending_strict (l : list Z) :
  NoDup l -> Sorted (fun u v => Z.geb u v = true) l -> StronglySorted Z.gt l.
Proof.
  intros Hnd Hs.
  apply Sorted_StronglySorted in Hs;
    [| intros a b c Hab Hbc; apply Z.geb_le in Hab, Hbc; apply Z.geb_le; lia].
  induction Hs as [| a l Hs IH Hall]; constructor.
  - apply IH. inversion Hnd; assumption.
  - inversion Hnd as [| ? ? Hnotin _]; subst.
    rewrite Forall_forall in *. intros x Hx.
    specialize (Hall x Hx). apply Z.geb_le in Hall.
    assert (x <> a) by (intros ->; contradiction). lia.
Qed.

Lemma all_years_In (df : DataFrame) (y : Z) :
  In y (all_years df) <-> In y (map year df).
Proof.
  unfold all_years, sorted_reverse, drop_duplicates. split; intros H.
  - apply (Permutation_in _ (Permutation_sym (sort_by_perm Z.geb _))) in H.
    apply (drop_duplicates_from_In Z.eqb Z.eqb_eq) in H. tauto.
  - apply (Permutation_in _ (sort_by_perm Z.geb _)).
    apply (drop_duplicates_from_In Z.eqb Z.eqb_eq). simpl. tauto.
Qed.

Lemma all_years_descending (df : DataFrame) :
  StronglySorted Z.gt (all_years df).
Proof.
  unfold all_years, sorted_reverse, drop_duplicates. apply descending_strict.
  - apply (Permutation_NoDup (sort_by_perm Z.geb _)).
    apply (drop_duplicates_from_NoDup Z.eqb Z.eqb_eq).
  - apply sort_by_Sorted. intros a b H.
    rewrite Z.geb_leb in *. apply Z.leb_gt in H. apply Z.leb_le. lia.
Qed.

(** X6. The year selector offers each year of the table once, newest
    first; on a table with at least one row its default is the single
    most recent year of the table. *)
Theorem year_selector_options :
  forall (df : DataFrame),
    StronglySorted Z.gt (all_years df) /\
    (forall y, In y (all_years df) <-> In y (map year df)) /\
    (forall (r : Row) (rest : DataFrame),
       exists newest,
         first_item (all_years (r :: rest)) = ret newest /\
         In newest (map year (r :: rest)) /\
         (forall y, In y (map year (r :: rest)) -> y <= newest)).
Proof.
  intros df. split; [apply all_years_descending |].
  split; [apply all_years_In |].
  intros r rest.
  destruct (all_years_cons r rest) as [newest [others E]].
  exists newest. rewrite E. split; [reflexivity |].
  pose proof (all_years_descending (r :: rest)) as Hs.
  pose proof (all_years_In (r :: rest)) as Hin.
  rewrite E in Hs, Hin. split.
  - apply Hin. left. reflexivity.
  - intros y Hy. apply Hin in Hy. destruct Hy as [<- | Hy]; [lia |].
    inversion Hs as [| ? ? _ Hall]; subst.
    rewrite Forall_forall in Hall. specialize (Hall y Hy). lia.
Qed.

(** ** Whole runs *)

(** X7. Once the loader has returned a table: with no row the run
    raises IndexError at all_years[0], whatever is selected; with a row
    and no year selected it is stopped; with a row and a year selected it
    reaches the end of the script. *)
Theorem run_outcome :
  forall (file : CsvFile) (selected_years : list Z)
         (selected_region selected_theme : string)
         out (df : DataFrame) region_order,
    load_and_preprocess_data file = (out, Done (Some (df, region_order))) ->
    let outcome :=
      snd (main file selected_years selected_region selected_theme) in
    (df = [] -> outcome = Raised IndexError) /\
    (df <> [] -> selected_years = [] -> outcome = Stopped) /\
    (df <> [] -> selected_years <> [] -> outcome = Done tt).
Proof.
  intros file selected_years selected_region selected_theme out df
         region_order Hload. cbv zeta.
  destruct file as [lines |]; [| discriminate Hload].
  rewrite load_some in Hload. injection Hload as _ Hdf _. subst df.
  destruct lines as [| l lines].
  - rewrite main_empty_table.
    split; [reflexivity | split; intros H; contradiction].
  - split; [discriminate |].
    split; intros _ Hy.
    + subst selected_years. rewrite main_empty_selection. reflexivity.
    + destruct selected_years as [| y ys]; [contradiction |].
      rewrite main_loaded. reflexivity.
Qed.

Lemma run_outcome_witness :
  snd (main (Some example_lines) [2023] NATIONWIDE "plotly_white") = Done tt /\
  snd (main (Some example_lines) [] NATIONWIDE "plotly_white") = Stopped /\
  snd (main (Some []) [2023] NATIONWIDE "plotly_white") = Raised IndexError.
Proof.
  pose proof (fun ys =>
    run_outcome (Some example_lines) ys NATIONWIDE "plotly_white" []
      (map preprocess_row example_lines) ["전국"; "RegionA"] eq_refl) as H.
  pose proof (run_outcome (Some []) [2023] NATIONWIDE "plotly_white" []
                [] [] eq_refl) as H0.
  cbv zeta in H, H0.
  split; [| split].
  - apply (H [2023]); discriminate.
  - apply (H []); [discriminate | reflexivity].
  - apply H0. reflexivity.
Defined.

Lemma cards_app (a b : list Element) :
  cards (a ++ b) = (cards a ++ cards b)%list.
Proof. apply flat_map_app. Qed.

Lemma tables_app (a b : list Element) :
  tables (a ++ b) = (tables a ++ tables b)%list.
Proof. apply flat_map_app. Qed.

Lemma charts_app (a b : list Element) :
  charts (a ++ b) = (charts a ++ charts b)%list.
Proof. apply flat_map_app. Qed.

Lemma visualization_cases (display : DataFrame) (selected_years : list Z)
  (selected_region selected_theme : string) :
  let out :=
    fst (visualization display selected_years selected_region selected_theme) in
  (exists s,
     out = [ Header "📊 데이터 시각화"; Subheader s;
             PlotlyChart (regional_comparison_figure display selected_years
                            selected_theme) ]) \/
  (exists s,
     out = [ Header "📊 데이터 시각화"; Subheader s;
             PlotlyChart (trend_figure display selected_region
                            selected_theme) ]) \/
  out = [Header "📊 데이터 시각화"; Info GUIDANCE].
Proof.
  cbv zeta. unfold visualization.
  destruct ((List.length selected_years =? 1)%nat
            && String.eqb selected_region NATIONWIDE);
    [left; eexists; reflexivity |].
  destruct ((1 <? List.length selected_years)%nat
            && negb (String.eqb selected_region NATIONWIDE));
    [right; left; eexists; reflexivity | right; right; reflexivity].
Qed.

(** X8. A run on a table with at least one row and a non-empty year
    selection writes exactly one table, the display subset; the three
    cards (employment rate, unemployment rate, population, in this order)
    when the KPI subset has a row and the no-data message and no card
    when it has none; and at most one chart. *)
Theorem run_page :
  forall (l : RawRow) (lines : list RawRow) (y : Z) (ys : list Z)
         (selected_region selected_theme : string),
    let df := map preprocess_row (l :: lines) in
    let selected_years := y :: ys in
    let display := display_df df selected_years selected_region in
    let kpi := kpi_df df selected_years selected_region in
    let out :=
      fst (main (Some (l :: lines)) selected_years selected_region
             selected_theme) in
    tables out = [display] /\
    (kpi <> [] ->
       cards out
       = [ (selected_region ++ " 평균 취업률", avg_employment_rate kpi, Percent2);
           (selected_region ++ " 평균 실업률", avg_unemployment_rate kpi, Percent2);
           (selected_region ++ " 평균 경제활동인구", avg_econ_pop kpi,
            Thousands0) ] /\
       ~ In (Info NO_DATA) out) /\
    (kpi = [] -> cards out = [] /\ In (Info NO_DATA) out) /\
    (List.length (charts out) <= 1)%nat.
Proof.
  intros l lines y ys selected_region selected_theme. cbv zeta.
  rewrite main_loaded. cbn [fst].
  set (df := map preprocess_row (l :: lines)).
  set (kpi := kpi_df df (y :: ys) selected_region).
  set (display := display_df df (y :: ys) selected_region).
  pose proof (visualization_cases display (y :: ys) selected_region
                selected_theme) as Hv. cbv zeta in Hv.
  set (viz := fst (visualization display (y :: ys) selected_region
                     selected_theme)) in *.
  assert (Hviz : tables viz = [] /\ cards viz = [] /\
                 (List.length (charts viz) <= 1)%nat /\
                 ~ In (Info NO_DATA) viz).
  { destruct Hv as [[s ->] | [[s ->] | ->]]; simpl;
      (split; [reflexivity | split; [reflexivity | split; [lia |]]]);
      intros H; repeat (destruct H as [H | H]; [discriminate H |]);
      destruct H. }
  destruct Hviz as [Hvt [Hvc [Hvl Hvi]]].
  rewrite !tables_app, !cards_app, !charts_app, Hvt, Hvc.
  destruct kpi as [| k kpi'] eqn:Ek; simpl.
  - split; [reflexivity |]. split; [intros H; contradiction |].
    split; [| exact Hvl].
    intros _. split; [reflexivity |].
    do 10 right. left. reflexivity.
  - split; [reflexivity |]. split; [| split; [discriminate | exact Hvl]].
    intros _. split; [reflexivity |].
    intros H. repeat (destruct H as [H | H]; [discriminate H |]).
    exact (Hvi H).
Qed.

Lemma run_page_witness :
  let out := fst (main (Some example_lines) [2023] NATIONWIDE "plotly_white") in
  let df := map preprocess_row example_lines in
  kpi_df df [2023] NATIONWIDE <> [] /\
  tables out = [df] /\
  map (fun c => snd (fst c)) (cards out)
  = [avg_employment_rate (kpi_df df [2023] NATIONWIDE);
     avg_unemployment_rate (kpi_df df [2023] NATIONWIDE);
     avg_econ_pop (kpi_df df [2023] NATIONWIDE)].
Proof.
  cbv zeta.
  assert (Hk : kpi_df (map preprocess_row example_lines) [2023] NATIONWIDE
               <> []) by discriminate.
  pose proof (run_page (mkRawRow "계" 2023 1000 950 50)
                [mkRawRow "RegionA" 2023 100 90 10] 2023 []
                NATIONWIDE "plotly_white") as H.
  cbv zeta in H. destruct H as [Ht [Hc _]].
  split; [exact Hk |]. split; [exact Ht |].
  change example_lines
    with [mkRawRow "계" 2023 1000 950 50; mkRawRow "RegionA" 2023 100 90 10].
  rewrite (proj1 (Hc Hk)). reflexivity.
Defined.

Lemma visualization_theme (display : DataFrame) (selected_years : list Z)
  (selected_region theme1 theme2 : string) :
  fst (visualization display selected_years selected_region theme2)
  = map (with_template theme2)
      (fst (visualization display selected_years selected_region theme1)).
Proof.
  unfold visualization.
  destruct ((List.length selected_years =? 1)%nat
            && String.eqb selected_region NATIONWIDE); [reflexivity |].
  destruct ((1 <? List.length selected_years)%nat
            && negb (String.eqb selected_region NATIONWIDE)); reflexivity.
Qed.

Lemma summary_cards_theme (kpi : DataFrame) (selected_region theme : string) :
  map (with_template theme) (fst (summary_cards kpi selected_region))
  = fst (summary_cards kpi selected_region).
Proof. destruct kpi; reflexivity. Qed.

(** X9. The chart theme reaches nothing but the template of the figure:
    a run with another theme has the same outcome and the same page,
    element by element, except for the template of its chart. *)
Theorem theme_only_sets_template :
  forall (file : CsvFile) (selected_years : list Z)
         (selected_region theme1 theme2 : string),
    main file selected_years selected_region theme2
    = (map (with_template theme2)
         (fst (main file selected_years selected_region theme1)),
       snd (main file selected_years selected_region theme1)).
Proof.
  intros file selected_years selected_region theme1 theme2.
  destruct file as [[| l lines] |].
  - rewrite !main_empty_table. reflexivity.
  - destruct selected_years as [| y ys].
    + rewrite !main_empty_selection. reflexivity.
    + rewrite !main_loaded. cbn [fst snd]. f_equal.
      rewrite !map_app, summary_cards_theme.
      rewrite (visualization_theme _ _ _ theme1 theme2). reflexivity.
  - rewrite !main_file_absent. reflexivity.
Qed.

(** ** Selections *)

Lemma filter_comm {A} (f g : A -> bool) (l : list A) :
  filter f (filter g l) = filter g (filter f l).
Proof.
  rewrite !filter_filter. apply filter_ext. intros x. apply andb_comm.
Qed.

Lemma filter_idem {A} (f : A -> bool) (l : list A) :
  filter f (filter f l) = filter f l.
Proof.
  rewrite filter_filter. apply filter_ext. intros x. destruct (f x); reflexivity.
Qed.

Lemma display_df_In (df : DataFrame) (selected_years : list Z)
  (selected_region : string) (r : Row) :
  In r (display_df df selected_years selected_region) <->
  In r df /\ In (year r) selected_years /\
  (selected_region = NATIONWIDE \/ region r = selected_region).
Proof.
  rewrite display_df_filter, filter_In.
  rewrite andb_true_iff, orb_true_iff, isin_In, !String.eqb_eq. tauto.
Qed.

(** X10. Selections compose.  The view of a specific region is the
    nationwide view of the same years narrowed to that region, so the
    nationwide view contains it; the view of two year lists together
    holds the rows of either view; and selecting again within a view with
    the same years and region changes nothing. *)
Theorem display_composes :
  forall (df : DataFrame) (years1 years2 : list Z) (selected_region : string),
    (selected_region <> NATIONWIDE ->
       display_df df years1 selected_region
       = filter (fun r => String.eqb (region r) selected_region)
           (display_df df years1 NATIONWIDE)) /\
    incl (display_df df years1 selected_region)
         (display_df df years1 NATIONWIDE) /\
    (forall r,
       In r (display_df df (years1 ++ years2) selected_region) <->
       In r (display_df df years1 selected_region) \/
       In r (display_df df years2 selected_region)) /\
    display_df (display_df df years1 selected_region) years1 selected_region
    = display_df df years1 selected_region.
Proof.
  intros df years1 years2 selected_region.
  split; [| split; [| split]].
  - intros H. apply String.eqb_neq in H. unfold display_df.
    rewrite H, String.eqb_refl. reflexivity.
  - intros r. rewrite !display_df_In. tauto.
  - intros r. rewrite !display_df_In, in_app_iff. tauto.
  - rewrite !display_df_filter. apply filter_idem.
Qed.

Lemma display_composes_witness :
  "서울" <> NATIONWIDE /\
  display_df c4_df [2023; 2022] "서울"
  = filter (fun r => String.eqb (region r) "서울")
      (display_df c4_df [2023; 2022] NATIONWIDE) /\
  List.length (display_df c4_df [2023; 2022] "서울") = 2%nat.
Proof.
  assert (H : "서울" <> NATIONWIDE) by discriminate.
  split; [exact H |].
  split; [exact (proj1 (display_composes c4_df [2023; 2022] [] "서울") H)
         | reflexivity].
Defined.

Lemma kpi_df_filter (df : DataFrame) (selected_years : list Z)
  (selected_region : string) :
  kpi_df df selected_years selected_region
  = filter (fun r => String.eqb (region r) selected_region)
      (filtered_df df selected_years).
Proof.
  unfold kpi_df, display_df.
  destruct (String.eqb_spec selected_region NATIONWIDE) as [-> | H];
    reflexivity.
Qed.

(** X11. The cards describe rows of one label only: every row of the KPI
    subset carries the selected label (the nationwide label when it is
    selected) and a selected year, and the subset is the same whether or
    not the table holds rows of other regions. *)
Theorem kpi_rows_of_selected_label :
  forall (df : DataFrame) (selected_years : list Z) (selected_region : string),
    (forall r, In r (kpi_df df selected_years selected_region) <->
       In r df /\ In (year r) selected_years /\ region r = selected_region) /\
    kpi_df df selected_years selected_region
    = kpi_df (filter (fun r => String.eqb (region r) selected_region) df)
        selected_years selected_region.
Proof.
  intros df selected_years selected_region. split.
  - intros r. rewrite kpi_df_filter. unfold filtered_df.
    rewrite !filter_In, isin_In, String.eqb_eq. tauto.
  - rewrite !kpi_df_filter. unfold filtered_df.
    rewrite (filter_comm _ (fun r => String.eqb (region r) selected_region)).
    rewrite filter_idem. reflexivity.
Qed.

(** X12. A year that the selector offers has rows: with the nationwide
    label the table shown for it is not empty.  A year that is not in the
    table gives the empty table for every region. *)
Theorem offered_year_has_rows :
  forall (df : DataFrame) (y : Z) (selected_region : string),
    (In y (all_years df) -> display_df df [y] NATIONWIDE <> []) /\
    (~ In y (all_years df) -> display_df df [y] selected_region = []).
Proof.
  intros df y selected_region. rewrite all_years_In. split.
  - intros H. apply in_map_iff in H. destruct H as [r [Hy Hr]].
    assert (Hin : In r (display_df df [y] NATIONWIDE)).
    { apply display_df_In. simpl. auto. }
    intros E. rewrite E in Hin. exact Hin.
  - intros H. rewrite display_df_filter. apply filter_none.
    intros r Hr. destruct (isin [y] (year r)) eqn:E; [| reflexivity].
    apply isin_In in E. destruct E as [E | []].
    exfalso. apply H. rewrite E. apply in_map. exact Hr.
Qed.

Lemma offered_year_has_rows_witness :
  all_years c4_df = [2023; 2022] /\
  display_df c4_df [2022] NATIONWIDE <> [] /\
  display_df c4_df [2021] "서울" = [].
Proof.
  pose proof (offered_year_has_rows c4_df 2022 "서울") as H22.
  pose proof (offered_year_has_rows c4_df 2021 "서울") as H21.
  split; [reflexivity |]. split.
  - apply (proj1 H22). right. left. reflexivity.
  - apply (proj2 H21). intros [H | [H | []]]; discriminate H.
Defined.

(** ** The two charts *)

(** X13. The regional comparison never draws the nationwide row: its two
    series run over the same labels, those of the displayed rows that are
    not nationwide, in table order, each series with one value per
    label. *)
Theorem regional_chart_regions :
  forall (display : DataFrame) (selected_years : list Z)
         (selected_theme : string),
    let fig :=
      regional_comparison_figure display selected_years selected_theme in
    let plot_df :=
      filter (fun r => negb (String.eqb (region r) NATIONWIDE)) display in
    Forall (fun t => trace_x t = Categories (map region plot_df) /\
                     List.length (trace_y t) = List.length plot_df)
           (traces fig) /\
    map trace_y (traces fig)
      = [map employment_rate plot_df; map unemployment_rate plot_df] /\
    ~ In NATIONWIDE (map region plot_df) /\
    (forall r, In r plot_df <-> In r display /\ region r <> NATIONWIDE).
Proof.
  intros display selected_years selected_theme. cbv zeta.
  split; [| split; [reflexivity | split]].
  - simpl. repeat constructor; simpl; apply length_map.
  - intros H. apply in_map_iff in H. destruct H as [r [Hreg Hr]].
    apply filter_In in Hr. destruct Hr as [_ Hr].
    rewrite Hreg, String.eqb_refl in Hr. discriminate Hr.
  - intros r. rewrite filter_In, negb_true_iff, String.eqb_neq. tauto.
Qed.

Lemma combine_map {A B C} (f : A -> B) (g : A -> C) (l : list A) :
  combine (map f l) (map g l) = map (fun a => (f a, g a)) l.
Proof. induction l as [| a l IH]; simpl; congruence. Qed.

(** X14. The trend chart draws each displayed row once, with its own
    rates: the points (year, employment rate) and (year, unemployment
    rate) of the two lines are those of the displayed rows, reordered
    only; taken from the display subset of a selection, every plotted
    year is a selected year and every point belongs to the selected
    region. *)
Theorem trend_chart_points :
  forall (df : DataFrame) (selected_years : list Z)
         (selected_region selected_theme : string),
    selected_region <> NATIONWIDE ->
    let display := display_df df selected_years selected_region in
    let plot_df := sort_values_year display in
    map (fun t => (trace_x t, trace_y t))
        (traces (trend_figure display selected_region selected_theme))
    = [ (Numbers (map year plot_df), map employment_rate plot_df);
        (Numbers (map year plot_df), map unemployment_rate plot_df) ] /\
    Permutation
      (combine (map year plot_df) (map employment_rate plot_df))
      (map (fun r => (year r, employment_rate r)) display) /\
    Permutation
      (combine (map year plot_df) (map unemployment_rate plot_df))
      (map (fun r => (year r, unemployment_rate r)) display) /\
    Forall (fun r => In (year r) selected_years /\ region r = selected_region)
           plot_df.
Proof.
  intros df selected_years selected_region selected_theme Hne. cbv zeta.
  split; [reflexivity |]. rewrite !combine_map.
  split; [| split].
  - apply Permutation_map, Permutation_sym, sort_values_year_perm.
  - apply Permutation_map, Permutation_sym, sort_values_year_perm.
  - apply Forall_forall. intros r Hr.
    apply (Permutation_in _ (Permutation_sym (sort_values_year_perm _))) in Hr.
    apply display_df_In in Hr. destruct Hr as [_ [Hy [E | E]]];
      [contradiction | auto].
Qed.

Lemma trend_chart_points_witness :
  "서울" <> NATIONWIDE /\
  map (fun t => (trace_x t, trace_y t))
      (traces (trend_figure (display_df c4_df [2023; 2022] "서울")
                 "서울" "plotly_white"))
  = [ (Numbers [2022; 2023], [(9100 # 100)%Q; (9000 # 100)%Q]);
      (Numbers [2022; 2023], [(900 # 100)%Q; (1000 # 100)%Q]) ].
Proof.
  assert (H : "서울" <> NATIONWIDE) by discriminate.
  split; [exact H |].
  rewrite (proj1 (trend_chart_points c4_df [2023; 2022] "서울"
                    "plotly_white" H)).
  reflexivity.
Defined.

(** ** The order of the picked years *)

Lemma isin_ext (years1 years2 : list Z) :
  (forall y, In y years1 <-> In y years2) ->
  forall v, isin years1 v = isin years2 v.
Proof.
  intros H v. destruct (isin years1 v) eqn:E1, (isin years2 v) eqn:E2;
    try reflexivity.
  - apply isin_In, H, isin_In in E1. congruence.
  - apply isin_In, H, isin_In in E2. congruence.
Qed.

(** X17. Table, cards and chart data do not depend on the order in which
    the years were picked: two selections with the same years give the
    same display subset and KPI subset, and, being permutations of each
    other, the same chart section. *)
Theorem year_order_is_irrelevant :
  forall (df : DataFrame) (years1 years2 : list Z)
         (selected_region selected_theme : string),
    Permutation years1 years2 ->
    display_df df years1 selected_region = display_df df years2 selected_region /\
    kpi_df df years1 selected_region = kpi_df df years2 selected_region /\
    visualization (display_df df years1 selected_region) years1
      selected_region selected_theme
    = visualization (display_df df years2 selected_region) years2
        selected_region selected_theme.
Proof.
  intros df years1 years2 selected_region selected_theme H.
  assert (Hin : forall y, In y years1 <-> In y years2).
  { intros y. split; apply Permutation_in;
      [exact H | apply Permutation_sym; exact H]. }
  assert (Hd : display_df df years1 selected_region
               = display_df df years2 selected_region).
  { rewrite !display_df_filter. apply filter_ext. intros r.
    rewrite (isin_ext _ _ Hin). reflexivity. }
  split; [exact Hd |]. split.
  - unfold kpi_df. rewrite Hd. reflexivity.
  - rewrite Hd. unfold visualization, regional_comparison_figure.
    rewrite (Permutation_length H).
    destruct years2 as [| a [| b years2]].
    + apply Permutation_sym, Permutation_nil in H. subst. reflexivity.
    + apply Permutation_sym, Permutation_length_1_inv in H. subst.
      reflexivity.
    + reflexivity.
Qed.

Lemma year_order_is_irrelevant_witness :
  Permutation [2023; 2022] [2022; 2023] /\
  display_df c4_df [2023; 2022] "서울" = display_df c4_df [2022; 2023] "서울".
Proof.
  assert (H : Permutation [2023; 2022] [2022; 2023]) by apply perm_swap.
  split; [exact H |].
  exact (proj1 (year_order_is_irrelevant c4_df _ _ "서울" "plotly_white" H)).
Defined.
